(** * capture-template: a shallow embedding of the capture pipeline

    The repository ships several revisions of each module.  The embedding
    follows the newest one of each:
    - [WebPageRenderer]: src/src/web-page-renderer.ts, lines 113-377
      (the revision taking [ICaptureOptions]);
    - [TemplateWebServer]: src/unnamed/part_001, lines 156-282;
    - [TemplateRenderer]: src/unnamed/part_000, lines 395-549;
    - [WebServer]: src/src/web-server.ts (the revision with the file cache).

    JavaScript values read from [template.json] are JSON values; JSON
    numbers are modelled as integers (only their truthiness is used).
    Page geometry reported by the browser ([getBoundingClientRect]) is
    modelled with exact rationals. *)

From Stdlib Require Import ZArith QArith Qround Ascii Lqa.
From stdpp Require Import base gmap strings list pretty.

(* ------------------------------------------------------------------ *)
(** ** JavaScript values *)

#[warnings="-register-all"]
Inductive json :=
| JNull
| JBool (b : bool)
| JNum (n : Z)
| JStr (s : string)
| JArr (xs : list json)
| JObj (fields : list (string * json)).

(** Property lookup in an object; a later binding of a key shadows an
    earlier one, as [JSON.parse] does with duplicate keys. *)
Fixpoint js_lookup (k : string) (l : list (string * json)) : option json :=
  match l with
  | [] => None
  | (k', v) :: t =>
      match js_lookup k t with
      | Some x => Some x
      | None => if String.eqb k k' then Some v else None
      end
  end.

(** Errors raised along the pipeline. *)
Inductive error :=
| ETypeError                (** property access or call on [null] *)
| EUsage (msg : string)     (** precondition checks of the render calls *)
| ENotStarted               (** [getTemplateConfig] before [start] *)
| EAlreadyStarted           (** [TemplateWebServer.start] called twice *)
| EConfigNotFound           (** [template.json] missing or not JSON *)
| EConfigInvalid            (** [waitSelector] missing or not a string *)
| EInflate                  (** [inflateTemplate] rejected *)
| ENavigation               (** [goto] failed or timed out *)
| EWaitTimeout              (** [wait] timed out *)
| EEvaluation               (** an in-page script threw *)
| EWrite                    (** [fs.writeFile] of the output rejected *)
| ERange                    (** [listen] on a port outside 0..65535 *)
| EAddrInUse                (** the 'error' event of [listen] on a taken port *)
| ENotRunning.              (** [server.close] on a server that is not listening *)

Inductive res (A : Type) := Ok (a : A) | Err (e : error).
Arguments Ok {A} a.
Arguments Err {A} e.

(** [v.k] on a JSON value; [None] is [undefined]. *)
Definition js_get (v : json) (k : string) : res (option json) :=
  match v with
  | JNull => Err ETypeError
  | JObj l => Ok (js_lookup k l)
  | _ => Ok None
  end.

(** JavaScript truthiness; [None] is [undefined]. *)
Definition truthy (v : option json) : bool :=
  match v with
  | None | Some JNull => false
  | Some (JBool b) => b
  | Some (JNum n) => negb (Z.eqb n 0)
  | Some (JStr s) => negb (String.eqb s "")
  | Some (JArr _) | Some (JObj _) => true
  end.

(** [a || b] *)
Definition js_or (a b : option json) : option json :=
  if truthy a then a else b.

(** [typeof v === "string"] *)
Definition is_string (v : option json) : bool :=
  match v with Some (JStr _) => true | _ => false end.

(* ------------------------------------------------------------------ *)
(** ** A state and error monad *)

Definition St (S A : Type) : Type := S -> S * res A.

Global Instance St_ret {S} : MRet (St S) := fun A a s => (s, Ok a).
Global Instance St_bind {S} : MBind (St S) :=
  fun A B f m s =>
    match m s with
    | (s', Ok a) => f a s'
    | (s', Err e) => (s', Err e)
    end.

Definition throw {S A} (e : error) : St S A := fun s => (s, Err e).

Definition lift {S A} (r : res A) : St S A := fun s => (s, r).

(* ------------------------------------------------------------------ *)
(** ** The headless browser, as seen by [WebPageRenderer] *)

(** What the browser finds at a URL.  [pg_body] and [pg_rect] depend on
    the viewport: the page may reflow when it is resized.  [pg_writable]
    is the file system the capture is written to: Nightmare's [screenshot]
    and [pdf] write their output with [fs.writeFile], which rejects for
    some paths (missing directory, no permission, full disk). *)
Record page := {
  pg_loads : bool;                              (** [goto] succeeds *)
  pg_waits : option json -> bool;               (** [wait(sel)] resolves in time *)
  pg_body : Z * Z -> Z * Z;                     (** body scrollWidth/scrollHeight *)
  pg_rect : option json -> Z * Z -> option (Q * Q * Q * Q);
    (** [querySelector(sel).getBoundingClientRect()]: left, top, right,
        bottom; [None] when no element matches *)
  pg_writable : string -> bool                  (** [fs.writeFile(path)] succeeds *)
}.

Record clip := { clip_x : Z; clip_y : Z; clip_height : Z; clip_width : Z }.

Record print_options := {
  marginsType : Z;
  pageSize : Z * Z;
  landscape : bool
}.

(** Browser interactions, logged in the order the Nightmare queue runs them. *)
Inductive action :=
| AGoto (url : string)
| AWait (sel : option json)
| AEvalBody (size : Z * Z)
| AViewport (w h : Z)
| AEvalRect (sel : option json) (r : clip)
| AScreenshot (path : string) (r : clip)
| APdf (path : string) (o : print_options).

Record nightmare := { nm_viewport : Z * Z; nm_log : list action }.

(** [WebPageRenderer]; its only state is the Nightmare instance. *)
Record wpr := { wpr_nightmare : option nightmare }.

Module Driver.

Definition log (nm : nightmare) (a : action) : nightmare :=
  {| nm_viewport := nm_viewport nm; nm_log := nm_log nm ++ [a] |}.

(** Run one queued Nightmare action; [this.nightmare.x(...)] on [null]
    is a [TypeError]. *)
Definition with_nm {A} (f : nightmare -> nightmare * res A) : St wpr A :=
  fun s =>
    match wpr_nightmare s with
    | None => (s, Err ETypeError)
    | Some nm => let '(nm', r) := f nm in ({| wpr_nightmare := Some nm' |}, r)
    end.

Definition goto (pg : page) (url : string) : St wpr unit :=
  with_nm (fun nm =>
    if pg_loads pg then (log nm (AGoto url), Ok tt) else (nm, Err ENavigation)).

Definition wait (pg : page) (sel : option json) : St wpr unit :=
  with_nm (fun nm =>
    if pg_waits pg sel then (log nm (AWait sel), Ok tt) else (nm, Err EWaitTimeout)).

(** [evaluate(() => { const body = document.querySelector('body');
    return { width: body.scrollWidth, height: body.scrollHeight }; })] *)
Definition evaluate_body (pg : page) : St wpr (Z * Z) :=
  with_nm (fun nm =>
    let sz := pg_body pg (nm_viewport nm) in (log nm (AEvalBody sz), Ok sz)).

Definition viewport (w h : Z) : St wpr unit :=
  with_nm (fun nm =>
    ({| nm_viewport := (w, h); nm_log := nm_log nm ++ [AViewport w h] |}, Ok tt)).

(** The capture rectangle, each component through [Math.ceil]. *)
Definition ceil_rect (r : Q * Q * Q * Q) : clip :=
  let '(l, t, rt, b) := r in
  {| clip_x := Qceiling l;
     clip_y := Qceiling t;
     clip_height := Qceiling (b - t);
     clip_width := Qceiling (rt - l) |}.

(** The second in-page script; [element] is [null] when nothing matches
    and [getBoundingClientRect] then throws inside the page. *)
Definition evaluate_rect (pg : page) (captureSelector : option json) : St wpr clip :=
  with_nm (fun nm =>
    match pg_rect pg captureSelector (nm_viewport nm) with
    | None => (nm, Err EEvaluation)
    | Some r => let c := ceil_rect r in (log nm (AEvalRect captureSelector c), Ok c)
    end).

(** [screenshot(path, rect)] and [pdf(path, options)]: the capture is
    written with [fs.writeFile]; the write is logged when it is attempted,
    since a rejected write may have left a partial file. *)
Definition screenshot (pg : page) (outputFilePath : string) (rect : clip) : St wpr unit :=
  with_nm (fun nm => (log nm (AScreenshot outputFilePath rect),
                      if pg_writable pg outputFilePath then Ok tt else Err EWrite)).

Definition pdf (pg : page) (outputFilePath : string) (o : print_options) : St wpr unit :=
  with_nm (fun nm => (log nm (APdf outputFilePath o),
                      if pg_writable pg outputFilePath then Ok tt else Err EWrite)).

Definition msg_waitSelector : string :=
  "'waitSelector' not specified in the options, please set this to element that must appear in the DOM before the capture is invoked.".

Definition msg_not_instantiated : string :=
  "WebPageRenderer: Nightmare headless browser is not instantiated, please call `start` before calling `renderImage`.".

Definition preRenderCheck (options : json) : St wpr unit :=
  fun s =>
    match js_get options "waitSelector" with
    | Err e => (s, Err e)
    | Ok ws =>
        if negb (truthy ws) then (s, Err (EUsage msg_waitSelector))
        else match wpr_nightmare s with
             | None => (s, Err (EUsage msg_not_instantiated))
             | Some _ => (s, Ok tt)
             end
    end.

(** [WebPageRenderer.renderImage] *)
Definition renderImage (pg : page) (webPageUrl outputFilePath : string)
    (options : json) : St wpr unit :=
  preRenderCheck options;;
  ws ← lift (js_get options "waitSelector");
  goto pg webPageUrl;;
  wait pg ws;;
  bodySize ← evaluate_body pg;
  viewport bodySize.1 bodySize.2;;
  cs ← lift (js_get options "captureSelector");
  rect ← evaluate_rect pg (js_or cs ws);
  screenshot pg outputFilePath rect.

Definition printOptions : print_options :=
  {| marginsType := 0; pageSize := (297000, 210000)%Z; landscape := true |}.

(** [WebPageRenderer.renderPDF] *)
Definition renderPDF (pg : page) (webPageUrl outputFilePath : string)
    (options : json) : St wpr unit :=
  preRenderCheck options;;
  ws ← lift (js_get options "waitSelector");
  goto pg webPageUrl;;
  wait pg ws;;
  pageDetails ← evaluate_body pg;
  viewport pageDetails.1 pageDetails.2;;
  pdf pg outputFilePath printOptions.

End Driver.

(** The browser interactions of a successful image render, in order. *)
Definition image_log (url out : string) (ws : option json) (sz : Z * Z)
    (sel : option json) (c : clip) : list action :=
  [AGoto url; AWait ws; AEvalBody sz; AViewport sz.1 sz.2; AEvalRect sel c;
   AScreenshot out c].

(** A small page: the body is 1200x900 whatever the viewport; [#chart]
    sits at (10.5, 20.25) and measures 300.2 by 150 once the viewport is
    1200 wide, and is clipped to 700 wide in a narrower one. *)
Definition chart_page : page := {|
  pg_loads := true;
  pg_waits := fun v => match v with Some (JStr "#chart") => true | _ => false end;
  pg_body := fun _ => (1200, 900)%Z;
  pg_rect := fun v vp =>
    match v with
    | Some (JStr "#chart") =>
        if Z.leb 1200 vp.1
        then Some ((21 # 2), (81 # 4), (21 # 2) + (1501 # 5), (81 # 4) + 150)%Q
        else Some ((21 # 2), (81 # 4), 700, (81 # 4) + 150)%Q
    | _ => None
    end;
  pg_writable := fun _ => true |}.

Definition chart_config : json := JObj [("waitSelector", JStr "#chart")].

Definition started : wpr :=
  {| wpr_nightmare := Some {| nm_viewport := (800, 600)%Z; nm_log := [] |} |}.

(* ------------------------------------------------------------------ *)
(** ** Servers and the orchestrator, under the event loop *)

(** A socket made by [http.createServer]: [listen] in flight, listening
    on a port, [close] called (no new connections accepted) but its
    callback not yet run, closed, or never bound ([listen] threw or
    failed). *)
Inductive hstatus := HBinding | HListening (port : Z) | HClosing | HClosed | HUnbound.

(** [WebServer] *)
Record webserver := {
  ws_requestedPortNo : Z;
  ws_assignedPortNo : Z;
  ws_server : option nat
}.

(** [TemplateWebServer] *)
Record tws := {
  tws_templateConfig : option json;
  tws_webServer : option nat
}.

(** The JavaScript heap: the one [TemplateRenderer] of the session, the
    objects it reaches, the sockets, and what the caller saw from each
    awaited call. *)
Inductive outcome := Done | Url (s : string) | Failed (e : error).

Record heap := {
  tr_webPageRenderer : option wpr;
  tr_templateWebServer : option nat;
  h_tws : gmap nat tws;
  h_ws : gmap nat webserver;
  h_http : gmap nat hstatus;
  h_next : nat;
  h_results : list outcome;
  h_exit : option error
    (** the process has exited on this uncaught exception *)
}.

Definition set_tr_wpr (o : option wpr) (h : heap) : heap :=
  {| tr_webPageRenderer := o; tr_templateWebServer := tr_templateWebServer h;
     h_tws := h_tws h; h_ws := h_ws h; h_http := h_http h; h_next := h_next h;
     h_results := h_results h; h_exit := h_exit h |}.
Definition set_tr_tws (o : option nat) (h : heap) : heap :=
  {| tr_webPageRenderer := tr_webPageRenderer h; tr_templateWebServer := o;
     h_tws := h_tws h; h_ws := h_ws h; h_http := h_http h; h_next := h_next h;
     h_results := h_results h; h_exit := h_exit h |}.
Definition set_tws (m : gmap nat tws) (h : heap) : heap :=
  {| tr_webPageRenderer := tr_webPageRenderer h; tr_templateWebServer := tr_templateWebServer h;
     h_tws := m; h_ws := h_ws h; h_http := h_http h; h_next := h_next h;
     h_results := h_results h; h_exit := h_exit h |}.
Definition set_ws (m : gmap nat webserver) (h : heap) : heap :=
  {| tr_webPageRenderer := tr_webPageRenderer h; tr_templateWebServer := tr_templateWebServer h;
     h_tws := h_tws h; h_ws := m; h_http := h_http h; h_next := h_next h;
     h_results := h_results h; h_exit := h_exit h |}.
Definition set_http (m : gmap nat hstatus) (h : heap) : heap :=
  {| tr_webPageRenderer := tr_webPageRenderer h; tr_templateWebServer := tr_templateWebServer h;
     h_tws := h_tws h; h_ws := h_ws h; h_http := m; h_next := h_next h;
     h_results := h_results h; h_exit := h_exit h |}.
Definition bump (h : heap) : heap :=
  {| tr_webPageRenderer := tr_webPageRenderer h; tr_templateWebServer := tr_templateWebServer h;
     h_tws := h_tws h; h_ws := h_ws h; h_http := h_http h; h_next := S (h_next h);
     h_results := h_results h; h_exit := h_exit h |}.
Definition record (o : outcome) (h : heap) : heap :=
  {| tr_webPageRenderer := tr_webPageRenderer h; tr_templateWebServer := tr_templateWebServer h;
     h_tws := h_tws h; h_ws := h_ws h; h_http := h_http h; h_next := h_next h;
     h_results := h_results h ++ [o]; h_exit := h_exit h |}.
Definition set_exit (e : error) (h : heap) : heap :=
  {| tr_webPageRenderer := tr_webPageRenderer h; tr_templateWebServer := tr_templateWebServer h;
     h_tws := h_tws h; h_ws := h_ws h; h_http := h_http h; h_next := h_next h;
     h_results := h_results h; h_exit := Some e |}.

Definition upd_tws (id : nat) (f : tws -> tws) (h : heap) : heap :=
  set_tws (alter f id (h_tws h)) h.
Definition upd_ws (id : nat) (f : webserver -> webserver) (h : heap) : heap :=
  set_ws (alter f id (h_ws h)) h.

(** A callback waiting for an I/O completion; running it may register
    further callbacks.  Promise continuations (microtasks) run inside the
    callback that settles the promise. *)
#[warnings="-register-all"]
Inductive task := Task (label : string) (run : heap -> heap * list task).

Definition config : Type := heap * list task.

(** The event loop: any pending I/O may complete next, as long as the
    process is running. *)
Inductive step : config -> config -> Prop :=
| step_run h pre lbl run post :
    h_exit h = None ->
    step (h, pre ++ Task lbl run :: post)
         (let '(h', new) := run h in (h', pre ++ post ++ new)).

(** Running the [i]-th pending callback, for concrete schedules. *)
Definition run_nth (i : nat) (c : config) : option config :=
  match h_exit c.1, c.2 !! i with
  | None, Some (Task _ run) =>
      let '(h', new) := run c.1 in Some (h', take i c.2 ++ drop (S i) c.2 ++ new)
  | _, _ => None
  end.

Fixpoint run_sched (is : list nat) (c : config) : option config :=
  match is with
  | [] => Some c
  | i :: is' => match run_nth i c with Some c' => run_sched is' c' | None => None end
  end.

(** The outside world: [template.json] read and parsed ([None] when the
    file is missing, unreadable or not JSON), whether [inflateTemplate]
    resolves, the port the OS gives the n-th socket when port 0 is
    requested (a free one), the page the browser finds at a URL, and the
    ports held by other processes. *)
Record env := {
  env_config : string -> option json;
  env_inflate : string -> json -> bool;
  env_port : nat -> Z;
  env_page : string -> page;
  env_port_taken : Z -> bool
}.

Definition kont (A : Type) : Type := res A -> heap -> heap * list task.

Section Session.
Variable E : env.

(** A socket of this process or another one is listening on [p]. *)
Definition port_in_use (h : heap) (p : Z) : bool :=
  env_port_taken E p ||
  existsb (fun e => match e.2 with HListening q => Z.eqb q p | _ => false end)
          (map_to_list (h_http h)).

(** [WebServer.start]: [http.createServer(app)], then [listen] inside the
    promise executor.  [listen] throws a [RangeError] at once for a port
    outside 0..65535, which rejects the promise.  Binding a port already
    in use emits an 'error' event on the server, which has no 'error'
    listener: the exception is uncaught and the process exits.  Otherwise
    the listen callback records the bound port in [assignedPortNo].  The
    request handler is modelled separately ([Asset]). *)
Definition ws_start (wid : nat) (k : kont unit) (h : heap) : heap * list task :=
  match h_ws h !! wid with
  | None => k (Err ETypeError) h
  | Some w =>
      let sid := h_next h in
      let req := ws_requestedPortNo w in
      let created (st : hstatus) :=
        bump (upd_ws wid (fun w => {| ws_requestedPortNo := ws_requestedPortNo w;
                                      ws_assignedPortNo := ws_assignedPortNo w;
                                      ws_server := Some sid |})
                (set_http (<[sid := st]> (h_http h)) h)) in
      if negb (Z.leb 0 req && Z.leb req 65535) then k (Err ERange) (created HUnbound)
      else
      (created HBinding, [Task "listen" (fun h =>
         if negb (Z.eqb req 0) && port_in_use h req then
           (set_exit EAddrInUse (set_http (<[sid := HUnbound]> (h_http h)) h), [])
         else
           let p := if Z.eqb req 0 then env_port E sid else req in
           let h2 := match h_http h !! sid with
                     | Some HBinding => set_http (<[sid := HListening p]> (h_http h)) h
                     | _ => h
                     end in
           k (Ok tt) (upd_ws wid (fun w => {| ws_requestedPortNo := ws_requestedPortNo w;
                                               ws_assignedPortNo := p;
                                               ws_server := ws_server w |}) h2))])
  end.

(** [WebServer.stop]: [this.server.close(cb)]; a listening socket stops
    accepting at once, and the callback runs once open connections are
    gone.  On a server that is not listening, the callback gets
    [ERR_SERVER_NOT_RUNNING] on a later tick.  Either way the callback
    sets [this.server] to [null]. *)
Definition ws_stop (wid : nat) (k : kont unit) (h : heap) : heap * list task :=
  match h_ws h !! wid with
  | None => k (Err ETypeError) h
  | Some w =>
      match ws_server w with
      | None => k (Err ETypeError) h
      | Some sid =>
          let forget (h : heap) :=
            upd_ws wid (fun w => {| ws_requestedPortNo := ws_requestedPortNo w;
                                    ws_assignedPortNo := ws_assignedPortNo w;
                                    ws_server := None |}) h in
          match h_http h !! sid with
          | Some (HListening _) =>
              (set_http (<[sid := HClosing]> (h_http h)) h,
               [Task "close" (fun h =>
                  k (Ok tt) (forget (set_http (<[sid := HClosed]> (h_http h)) h)))])
          | _ => (h, [Task "close" (fun h => k (Err ENotRunning) (forget h))])
          end
      end
  end.

(** [WebServer.getUrl] *)
Definition ws_getUrl (w : webserver) : string :=
  "http://127.0.0.1:" +:+ pretty (ws_assignedPortNo w).

(** [TemplateWebServer.start(templatePath, data, port)] *)
Definition tws_start (tid : nat) (templatePath : string) (data : json) (port : Z)
    (k : kont unit) (h : heap) : heap * list task :=
  match h_tws h !! tid with
  | None => k (Err ETypeError) h
  | Some t =>
      if truthy (tws_templateConfig t) then k (Err EAlreadyStarted) h
      else
      (h, [Task "readFile" (fun h =>
        match env_config E templatePath with
        | None => k (Err EConfigNotFound) h
        | Some cfg =>
            let h := upd_tws tid (fun t => {| tws_templateConfig := Some cfg;
                                              tws_webServer := tws_webServer t |}) h in
            match js_get cfg "waitSelector" with
            | Err e => k (Err e) h
            | Ok ws =>
                if negb (truthy ws) || negb (is_string ws) then k (Err EConfigInvalid) h
                else
                (h, [Task "inflateTemplate" (fun h =>
                  if env_inflate E templatePath data then
                    let wid := h_next h in
                    let h := upd_tws tid (fun t => {| tws_templateConfig := tws_templateConfig t;
                                                      tws_webServer := Some wid |})
                               (bump (set_ws (<[wid := {| ws_requestedPortNo := port;
                                                          ws_assignedPortNo := port;
                                                          ws_server := None |}]> (h_ws h)) h)) in
                    ws_start wid k h
                  else k (Err EInflate) h)])
            end
        end)])
  end.

(** [TemplateWebServer.end] *)
Definition tws_end (tid : nat) (k : kont unit) (h : heap) : heap * list task :=
  match h_tws h !! tid with
  | None => k (Err ETypeError) h
  | Some t =>
      let h := upd_tws tid (fun t => {| tws_templateConfig := None;
                                        tws_webServer := tws_webServer t |}) h in
      match tws_webServer t with
      | None => k (Ok tt) h
      | Some wid =>
          ws_stop wid (fun r h =>
            match r with
            | Ok _ => k (Ok tt) (upd_tws tid (fun t => {| tws_templateConfig := tws_templateConfig t;
                                                           tws_webServer := None |}) h)
            | Err e => k (Err e) h
            end) h
      end
  end.

(** [TemplateWebServer.getUrl] *)
Definition tws_getUrl (tid : nat) (h : heap) : res string :=
  match h_tws h !! tid with
  | None => Err ETypeError
  | Some t =>
      match tws_webServer t with
      | None => Err ETypeError
      | Some wid => match h_ws h !! wid with
                    | Some w => Ok (ws_getUrl w)
                    | None => Err ETypeError
                    end
      end
  end.

(** [TemplateWebServer.getTemplateConfig] *)
Definition tws_getTemplateConfig (tid : nat) (h : heap) : res json :=
  match h_tws h !! tid with
  | None => Err ETypeError
  | Some t =>
      match tws_templateConfig t with
      | Some cfg => if truthy (Some cfg) then Ok cfg else Err ENotStarted
      | None => Err ENotStarted
      end
  end.

(** [TemplateRenderer.start]: a new [WebPageRenderer] whose [start]
    makes the Nightmare instance (800x600 window). *)
Definition tr_start (k : kont unit) (h : heap) : heap * list task :=
  k (Ok tt) (set_tr_wpr (Some {| wpr_nightmare :=
                                   Some {| nm_viewport := (800, 600)%Z; nm_log := [] |} |}) h).

(** [TemplateRenderer.unloadTemplate] *)
Definition tr_unloadTemplate (k : kont unit) (h : heap) : heap * list task :=
  match tr_templateWebServer h with
  | None => k (Ok tt) h
  | Some tid =>
      tws_end tid (fun r h =>
        match r with
        | Ok _ => k (Ok tt) (set_tr_tws None h)
        | Err e => k (Err e) h
        end) h
  end.

(** [TemplateRenderer.loadTemplate].  The source declares the parameters
    as [(data, templatePath, port)]; index.ts calls it as
    [loadTemplate(templatePath, data, port)] and it forwards its first two
    arguments positionally to [TemplateWebServer.start(templatePath, data,
    port)], so the path and the data arrive where [start] expects them.
    The call [this.unloadTemplate()] is not awaited: its promise is
    dropped and its continuation runs whenever the old socket closes. *)
Definition tr_loadTemplate (templatePath : string) (data : json) (port : Z)
    (k : kont unit) (h : heap) : heap * list task :=
  let '(h1, ts1) := tr_unloadTemplate (fun _ h => (h, [])) h in
  let tid := h_next h1 in
  let h2 := set_tr_tws (Some tid)
              (bump (set_tws (<[tid := {| tws_templateConfig := None;
                                          tws_webServer := None |}]> (h_tws h1)) h1)) in
  let '(h3, ts2) := tws_start tid templatePath data port k h2 in
  (h3, ts1 ++ ts2).

(** [TemplateRenderer.end] *)
Definition tr_end (k : kont unit) (h : heap) : heap * list task :=
  tr_unloadTemplate (fun r h =>
    match r with
    | Err e => k (Err e) h
    | Ok _ =>
        match tr_webPageRenderer h with
        | None => k (Ok tt) h
        | Some w =>
            match wpr_nightmare w with
            | None => k (Err ETypeError) h
            | Some _ =>
                (h, [Task "nightmare.end" (fun h =>
                       k (Ok tt) (set_tr_wpr None h))])
            end
        end
    end) h.

(** [TemplateRenderer.getUrl] *)
Definition tr_getUrl (h : heap) : res string :=
  match tr_templateWebServer h with
  | None => Err ETypeError
  | Some tid => tws_getUrl tid h
  end.

Definition msg_tr_not_started : string :=
  "TemplateRenderer is not started, please call 'start' to initiate.".
Definition msg_tr_no_template : string :=
  "TemplateRenderer: No template is loaded, please call 'loadTemplate'.".

(** [TemplateRenderer.preRenderCheck] *)
Definition tr_preRenderCheck (h : heap) : res unit :=
  match tr_webPageRenderer h with
  | None => Err (EUsage msg_tr_not_started)
  | Some _ =>
      match tr_templateWebServer h with
      | None => Err (EUsage msg_tr_no_template)
      | Some _ => Ok tt
      end
  end.

(** [TemplateRenderer.renderImage] and [renderPDF]: the check, then
    [getUrl()] and [getTemplateConfig()] as arguments, then the driver,
    whose browser session completes later. *)
Definition tr_render (drive : page -> string -> string -> json -> St wpr unit)
    (outputFilePath : string) (k : kont unit) (h : heap) : heap * list task :=
  match tr_preRenderCheck h with
  | Err e => k (Err e) h
  | Ok _ =>
      match tr_webPageRenderer h, tr_templateWebServer h with
      | Some w, Some tid =>
          match tws_getUrl tid h with
          | Err e => k (Err e) h
          | Ok url =>
              match tws_getTemplateConfig tid h with
              | Err e => k (Err e) h
              | Ok cfg =>
                  let '(w', r) := drive (env_page E url) url outputFilePath cfg w in
                  (set_tr_wpr (Some w') h, [Task "render" (fun h => k r h)])
              end
          end
      | _, _ => k (Err ETypeError) h
      end
  end.

Definition tr_renderImage := tr_render Driver.renderImage.
Definition tr_renderPDF := tr_render Driver.renderPDF.

(** A caller that awaits each call in turn and notes what it got. *)
Inductive cmd :=
| CStart
| CLoad (templatePath : string) (data : json) (port : Z)
| CUnload
| CEnd
| CGetUrl
| CRenderImage (out : string)
| CRenderPDF (out : string).

Definition of_res (r : res unit) : outcome :=
  match r with Ok _ => Done | Err e => Failed e end.

Fixpoint client (cs : list cmd) (h : heap) : heap * list task :=
  match cs with
  | [] => (h, [])
  | c :: rest =>
      let k : kont unit := fun r h => client rest (record (of_res r) h) in
      match c with
      | CStart => tr_start k h
      | CLoad p d port => tr_loadTemplate p d port k h
      | CUnload => tr_unloadTemplate k h
      | CEnd => tr_end k h
      | CGetUrl =>
          client rest (record (match tr_getUrl h with
                               | Ok s => Url s
                               | Err e => Failed e
                               end) h)
      | CRenderImage out => tr_renderImage out k h
      | CRenderPDF out => tr_renderPDF out k h
      end
  end.

End Session.

Definition empty_heap : heap :=
  {| tr_webPageRenderer := None; tr_templateWebServer := None; h_tws := ∅;
     h_ws := ∅; h_http := ∅; h_next := 0; h_results := []; h_exit := None |}.

(** The number of sockets accepting connections. *)
Definition listening (h : heap) : nat :=
  length (List.filter (fun p => match p.2 with HListening _ => true | _ => false end)
                      (map_to_list (h_http h))).

(** A concrete world: every template but [bad] has [chart_config] as its
    [template.json]; [bad] has an empty object. *)
Definition demo_env : env := {|
  env_config := fun p => if String.eqb p "bad" then Some (JObj []) else Some chart_config;
  env_inflate := fun _ _ => true;
  env_port := fun n => (40000 + Z.of_nat n)%Z;
  env_page := fun _ => chart_page;
  env_port_taken := fun _ => false |}.

(* ------------------------------------------------------------------ *)
(** ** The asset server's request handler *)

Module Asset.

(** [s.split('/')] *)
Fixpoint js_split_slash (s : string) : list string :=
  match s with
  | EmptyString => [""]
  | String c rest =>
      let parts := js_split_slash rest in
      if Ascii.eqb c "/"%char then "" :: parts
      else match parts with
           | p :: ps => String c p :: ps
           | [] => [String c ""]
           end
  end.

(** Resolution of [.] and [..] in a relative path ([acc] reversed). *)
Fixpoint norm_segs (acc : list string) (segs : list string) : list string :=
  match segs with
  | [] => rev acc
  | s :: rest =>
      if String.eqb s "." then norm_segs acc rest
      else if String.eqb s ".." then
        match acc with
        | a :: acc' => if String.eqb a ".." then norm_segs (".." :: acc) rest
                       else norm_segs acc' rest
        | [] => norm_segs [".."] rest
        end
      else norm_segs (s :: acc) rest
  end.

(** POSIX [path.join(...segs)] for segments without separators: empty
    segments are dropped, the rest normalised, [.] when nothing is left. *)
Definition path_join (segs : list string) : string :=
  match List.filter (fun s => negb (String.eqb s "")) segs with
  | [] => "."
  | parts => match norm_segs [] parts with
             | [] => "."
             | r => String.concat "/" r
             end
  end.

(** An expanded template: [find(path)] gives the file, whose [expand()]
    yields its content. *)
Definition template : Type := string -> option string.

Inductive body := BText (s : string) | BJson (v : json).
Inductive response := RSend (b : body) | RStatus (code : Z).

(** [loadTemplateFile(template, cache, url)]: the content, the new
    cache, and the logical paths expanded on the way ([[]] or one). *)
Definition loadTemplateFile (tpl : template) (cache : gmap string string) (url : string)
    : gmap string string * list string * res string :=
  let miss :=
    let fileSystemPath := path_join (js_split_slash url) in
    match tpl fileSystemPath with
    | None => (cache, [], Err EEvaluation)
    | Some expandedFileContent =>
        (<[url := expandedFileContent]> cache, [fileSystemPath], Ok expandedFileContent)
    end in
  match cache !! url with
  | Some cachedFileContent =>
      if truthy (Some (JStr cachedFileContent)) then (cache, [], Ok cachedFileContent)
      else miss
  | None => miss
  end.

(** The handler installed by [WebServer.start(data, template)] with
    [app.use("/", ...)]: every request goes through it. *)
Definition handle (tpl : template) (data : json) (fileCache : gmap string string)
    (url : string) : gmap string string * list string * response :=
  let fileName := if String.eqb url "/" then "index.html" else url in
  match loadTemplateFile tpl fileCache fileName with
  | (c, ex, Ok fileContent) => (c, ex, RSend (BText fileContent))
  | (c, ex, Err _) => (c, ex, RStatus 404)
  end.

(** Requests served one after another by one server; the expansions of
    the whole run, in order. *)
Fixpoint serve_all (tpl : template) (data : json) (fileCache : gmap string string)
    (urls : list string) : gmap string string * list string * list response :=
  match urls with
  | [] => (fileCache, [], [])
  | u :: us =>
      let '(c1, ex1, r) := handle tpl data fileCache u in
      let '(c2, ex2, rs) := serve_all tpl data c1 us in
      (c2, ex1 ++ ex2, r :: rs)
  end.

(** A template with an index page and a script. *)
Definition demo_template : template :=
  fun p => if String.eqb p "index.html" then Some "<div id='chart'></div>"
           else if String.eqb p "js/app.js" then Some "render();"
           else None.

End Asset.


(* ------------------------------------------------------------------ *)
(** ** The entry points of index.ts (src/unnamed/part_000, lines 88-129) *)

Section Capture.
Variable E : env.

(** The outcome of [fs.ensureDir(path.dirname(outputPath))], by output
    path. *)
Variable ensureDir : string -> res unit.

(** Awaiting calls one after the other inside an [async] function: the
    first rejection is rethrown and ends the function. *)
Fixpoint chain (fs : list (kont unit -> heap -> heap * list task)) (k : kont unit)
    (h : heap) : heap * list task :=
  match fs with
  | [] => k (Ok tt) h
  | f :: fs' => f (fun r h => match r with
                             | Ok _ => chain fs' k h
                             | Err e => k (Err e) h
                             end) h
  end.

(** [new TemplateRenderer(options)]: both fields start out [null]. *)
Definition new_renderer (h : heap) : heap := set_tr_wpr None (set_tr_tws None h).

(** [initTemplateRenderer(templatePath, data, port, options)] *)
Definition initTemplateRenderer (templatePath : string) (data : json) (port : Z)
    (k : kont unit) (h : heap) : heap * list task :=
  chain [tr_start; tr_loadTemplate E templatePath data port] k (new_renderer h).

(** [deinitTemplateRenderer(templateRenderer, options)]: nothing is
    released when [options && options.leaveBrowserOpen] is truthy. *)
Definition deinitTemplateRenderer (options : option json) (k : kont unit) (h : heap)
    : heap * list task :=
  let leaveBrowserOpen :=
    match options with
    | Some o => truthy (Some o) &&
                match js_get o "leaveBrowserOpen" with Ok v => truthy v | Err _ => false end
    | None => false
    end in
  if leaveBrowserOpen then k (Ok tt) h
  else chain [tr_unloadTemplate; tr_end] k h.

(** [captureImage] and [capturePDF] share their body up to the render
    call: make the output directory, start a renderer on port 0, render,
    then [deinitTemplateRenderer(templateRenderer)], called without the
    options.  The options only reach the constructors (logging, browser
    settings), which this model does not observe. *)
Definition capture (render : string -> kont unit -> heap -> heap * list task)
    (templatePath : string) (data : json) (outputPath : string) (options : option json)
    (k : kont unit) (h : heap) : heap * list task :=
  (h, [Task "ensureDir" (fun h =>
         match ensureDir outputPath with
         | Err e => k (Err e) h
         | Ok _ =>
             let autoAssignPortNo := 0%Z in
             chain [initTemplateRenderer templatePath data autoAssignPortNo;
                    render outputPath;
                    deinitTemplateRenderer None] k h
         end)]).

Definition captureImage := capture (tr_renderImage E).
Definition capturePDF := capture (tr_renderPDF E).

End Capture.

(** The caller of an entry point, noting how its promise settled. *)
Definition caller : kont unit := fun r h => (record (of_res r) h, []).

(** The browser log of a driver state. *)
Definition log_of (s : wpr) : list action :=
  match wpr_nightmare s with Some nm => nm_log nm | None => [] end.

(** Actions that write the output file. *)
Definition writes_output (a : action) : bool :=
  match a with AScreenshot _ _ | APdf _ _ => true | _ => false end.

(** The path an action writes to. *)
Definition output_of (a : action) : option string :=
  match a with AScreenshot p _ | APdf p _ => Some p | _ => None end.

(* ================================================================== *)
(** * Theorems *)

Example chart_image :
  Driver.renderImage chart_page "http://127.0.0.1:4000" "out.png" chart_config started
  = ({| wpr_nightmare := Some {| nm_viewport := (1200, 900)%Z;
         nm_log := image_log "http://127.0.0.1:4000" "out.png" (Some (JStr "#chart"))
                     (1200, 900)%Z (Some (JStr "#chart"))
                     {| clip_x := 11; clip_y := 21; clip_height := 150; clip_width := 301 |} |} |},
     Ok tt).
Proof. vm_compute. reflexivity. Qed.

(** C1: with a started driver and a truthy [waitSelector], an image render
    that gets past navigation, the wait and the element lookup first reads
    the body's scroll size at the current viewport, resizes the viewport to
    exactly that size, only then measures the capture element (the
    [captureSelector || waitSelector] one) in the resized viewport, rounds
    left, top, height and width up with [Math.ceil], and finally writes a
    screenshot cropped to that rectangle to the output path; the render
    succeeds exactly when that write succeeds. *)
Theorem renderImage_measure_resize_measure (pg : page) (url out : string)
    (options : json) (nm : nightmare) (ws cs : option json) (l t r b : Q) :
  js_get options "waitSelector" = Ok ws ->
  truthy ws = true ->
  js_get options "captureSelector" = Ok cs ->
  pg_loads pg = true ->
  pg_waits pg ws = true ->
  pg_rect pg (js_or cs ws) (pg_body pg (nm_viewport nm)) = Some (l, t, r, b) ->
  Driver.renderImage pg url out options {| wpr_nightmare := Some nm |} =
  ({| wpr_nightmare := Some
        {| nm_viewport := pg_body pg (nm_viewport nm);
           nm_log := nm_log nm ++
             image_log url out ws (pg_body pg (nm_viewport nm)) (js_or cs ws)
               {| clip_x := Qceiling l; clip_y := Qceiling t;
                  clip_height := Qceiling (b - t);
                  clip_width := Qceiling (r - l) |} |} |},
   if pg_writable pg out then Ok tt else Err EWrite).
Proof.
  intros Hws Htr Hcs Hload Hwait Hrect.
  destruct (pg_body pg (nm_viewport nm)) as [w h] eqn:Ebody.
  unfold Driver.renderImage, Driver.preRenderCheck.
  cbv [mbind St_bind lift]. rewrite Hws, Htr. cbn.
  rewrite Hload. cbn. rewrite Hwait. cbn. rewrite Ebody. cbn.
  rewrite Hcs. cbn. rewrite Hrect. cbn.
  unfold image_log, Driver.log; cbn. rewrite <- !app_assoc. reflexivity.
Qed.

Lemma renderImage_measure_resize_measure_witness :
  Driver.renderImage chart_page "http://127.0.0.1:4000" "out.png" chart_config started
  = ({| wpr_nightmare := Some {| nm_viewport := pg_body chart_page (800, 600)%Z;
         nm_log := [] ++ image_log "http://127.0.0.1:4000" "out.png" (Some (JStr "#chart"))
                     (pg_body chart_page (800, 600)%Z) (js_or None (Some (JStr "#chart")))
                     {| clip_x := Qceiling (21 # 2); clip_y := Qceiling (81 # 4);
                        clip_height := Qceiling ((81 # 4) + 150 - (81 # 4));
                        clip_width := Qceiling ((21 # 2) + (1501 # 5) - (21 # 2)) |} |} |},
     Ok tt).
Proof.
  apply (renderImage_measure_resize_measure chart_page "http://127.0.0.1:4000" "out.png"
           chart_config {| nm_viewport := (800, 600)%Z; nm_log := [] |}
           (Some (JStr "#chart")) None);
    reflexivity.
Defined.

(** Two option objects that agree on [waitSelector] and on the selector
    [captureSelector || waitSelector] give the same image render. *)
Lemma renderImage_selector_congr (pg : page) (url out : string) (o1 o2 : json) (s : wpr) :
  js_get o1 "waitSelector" = js_get o2 "waitSelector" ->
  (forall ws, js_get o1 "waitSelector" = Ok ws -> truthy ws = true ->
     exists cs1 cs2, js_get o1 "captureSelector" = Ok cs1 /\
                     js_get o2 "captureSelector" = Ok cs2 /\
                     js_or cs1 ws = js_or cs2 ws) ->
  Driver.renderImage pg url out o1 s = Driver.renderImage pg url out o2 s.
Proof.
  intros Hws Hsel.
  unfold Driver.renderImage, Driver.preRenderCheck.
  cbv [mbind St_bind lift]. rewrite <- Hws.
  destruct (js_get o1 "waitSelector") as [ws|e] eqn:E1; [|reflexivity].
  destruct (truthy ws) eqn:Ht; cbn; [|reflexivity].
  destruct (wpr_nightmare s); [|reflexivity].
  destruct (Hsel ws eq_refl Ht) as (cs1 & cs2 & H1 & H2 & H3).
  rewrite H1, H2, H3. reflexivity.
Qed.

Lemma key_neq_waitSelector : "waitSelector" <> "captureSelector".
Proof. discriminate. Qed.

(** C2: a PDF render reads only [waitSelector] from the options, so two
    option objects that differ at most in [captureSelector] give the same
    result; and a render that gets past navigation and the wait resizes the
    viewport to the body's full scroll size and prints the whole document
    with [marginsType] 0, page size 297000 x 210000 and landscape set,
    succeeding exactly when the output file is written. *)
Theorem renderPDF_a4_landscape_no_captureSelector (pg : page) (url out : string)
    (o1 o2 : json) (nm : nightmare) (ws : option json) :
  (forall k, k <> "captureSelector" -> js_get o1 k = js_get o2 k) ->
  (forall s, Driver.renderPDF pg url out o1 s = Driver.renderPDF pg url out o2 s) /\
  (js_get o1 "waitSelector" = Ok ws -> truthy ws = true ->
   pg_loads pg = true -> pg_waits pg ws = true ->
   Driver.renderPDF pg url out o1 {| wpr_nightmare := Some nm |} =
   ({| wpr_nightmare := Some
         {| nm_viewport := pg_body pg (nm_viewport nm);
            nm_log := nm_log nm ++
              [AGoto url; AWait ws; AEvalBody (pg_body pg (nm_viewport nm));
               AViewport (pg_body pg (nm_viewport nm)).1 (pg_body pg (nm_viewport nm)).2;
               APdf out {| marginsType := 0; pageSize := (297000, 210000)%Z;
                           landscape := true |}] |} |},
    if pg_writable pg out then Ok tt else Err EWrite)).
Proof.
  intros Hagree. split.
  - intros s. unfold Driver.renderPDF, Driver.preRenderCheck.
    cbv [mbind St_bind lift].
    rewrite (Hagree "waitSelector" key_neq_waitSelector). reflexivity.
  - intros Hws Htr Hload Hwait.
    destruct (pg_body pg (nm_viewport nm)) as [w h] eqn:Ebody.
    unfold Driver.renderPDF, Driver.preRenderCheck.
    cbv [mbind St_bind lift]. rewrite Hws, Htr. cbn.
    rewrite Hload. cbn. rewrite Hwait. cbn. rewrite Ebody. cbn.
    unfold Driver.log; cbn. rewrite <- !app_assoc. reflexivity.
Qed.

Lemma renderPDF_a4_landscape_no_captureSelector_witness :
  (forall s, Driver.renderPDF chart_page "u" "out.pdf" chart_config s =
             Driver.renderPDF chart_page "u" "out.pdf"
               (JObj [("waitSelector", JStr "#chart"); ("captureSelector", JStr "#legend")]) s) /\
  (Driver.renderPDF chart_page "u" "out.pdf" chart_config started =
   ({| wpr_nightmare := Some
         {| nm_viewport := pg_body chart_page (800, 600)%Z;
            nm_log := [] ++
              [AGoto "u"; AWait (Some (JStr "#chart"));
               AEvalBody (pg_body chart_page (800, 600)%Z);
               AViewport (pg_body chart_page (800, 600)%Z).1 (pg_body chart_page (800, 600)%Z).2;
               APdf "out.pdf" {| marginsType := 0; pageSize := (297000, 210000)%Z;
                                 landscape := true |}] |} |},
    Ok tt)).
Proof.
  destruct (renderPDF_a4_landscape_no_captureSelector chart_page "u" "out.pdf" chart_config
           (JObj [("waitSelector", JStr "#chart"); ("captureSelector", JStr "#legend")])
           {| nm_viewport := (800, 600)%Z; nm_log := [] |} (Some (JStr "#chart")))
    as [Hsame Hrun].
  - intros k Hk. simpl.
    destruct (String.eqb_spec k "captureSelector"); [contradiction|reflexivity].
  - split; [exact Hsame|]. apply Hrun; reflexivity.
Defined.

(** C9: when [template.json] has no [captureSelector], the image render
    behaves exactly as with [captureSelector] set to the [waitSelector]
    value, and a render that gets through measures and crops to the
    element matched by [waitSelector] in the resized viewport, then
    succeeds exactly when the screenshot is written. *)
Theorem renderImage_captureSelector_defaults_to_waitSelector (pg : page) (url out : string)
    (o o' : json) (ws : option json) (nm : nightmare) (l t r b : Q) :
  js_get o "captureSelector" = Ok None ->
  js_get o "waitSelector" = Ok ws ->
  js_get o' "waitSelector" = Ok ws ->
  js_get o' "captureSelector" = Ok ws ->
  (forall s, Driver.renderImage pg url out o s = Driver.renderImage pg url out o' s) /\
  (truthy ws = true -> pg_loads pg = true -> pg_waits pg ws = true ->
   pg_rect pg ws (pg_body pg (nm_viewport nm)) = Some (l, t, r, b) ->
   Driver.renderImage pg url out o {| wpr_nightmare := Some nm |} =
   ({| wpr_nightmare := Some
         {| nm_viewport := pg_body pg (nm_viewport nm);
            nm_log := nm_log nm ++
              image_log url out ws (pg_body pg (nm_viewport nm)) ws
                {| clip_x := Qceiling l; clip_y := Qceiling t;
                   clip_height := Qceiling (b - t);
                   clip_width := Qceiling (r - l) |} |} |},
    if pg_writable pg out then Ok tt else Err EWrite)).
Proof.
  intros Hcs Hws Hws' Hcs'. split.
  - intros s. apply renderImage_selector_congr.
    + rewrite Hws, Hws'. reflexivity.
    + intros ws0 Hws0 Ht. rewrite Hws in Hws0. injection Hws0 as <-.
      exists None, ws. split; [exact Hcs|]. split; [exact Hcs'|].
      unfold js_or. cbn. rewrite Ht. reflexivity.
  - intros Htr Hload Hwait Hrect.
    destruct (pg_body pg (nm_viewport nm)) as [w h] eqn:Ebody.
    unfold Driver.renderImage, Driver.preRenderCheck.
    cbv [mbind St_bind lift]. rewrite Hws, Htr. cbn.
    rewrite Hload. cbn. rewrite Hwait. cbn. rewrite Ebody. cbn.
    rewrite Hcs. cbn. rewrite Hrect. cbn.
    unfold image_log, Driver.log; cbn. rewrite <- !app_assoc. reflexivity.
Qed.

(** C10: a [captureSelector] that is present but falsy ([""], [null],
    [false], [0]) gives the same image render as no [captureSelector] at
    all, since the selector is chosen with [||]. *)
Theorem renderImage_falsy_captureSelector_as_omitted (pg : page) (url out : string)
    (o1 o2 : json) (v : json) :
  (forall k, k <> "captureSelector" -> js_get o1 k = js_get o2 k) ->
  js_get o1 "captureSelector" = Ok None ->
  js_get o2 "captureSelector" = Ok (Some v) ->
  truthy (Some v) = false ->
  forall s, Driver.renderImage pg url out o1 s = Driver.renderImage pg url out o2 s.
Proof.
  intros Hagree Hcs1 Hcs2 Hfalsy s. apply renderImage_selector_congr.
  - apply Hagree, key_neq_waitSelector.
  - intros ws _ _. exists None, (Some v). split; [exact Hcs1|]. split; [exact Hcs2|].
    unfold js_or. rewrite Hfalsy. reflexivity.
Qed.

Lemma renderImage_captureSelector_defaults_to_waitSelector_witness :
  (forall s, Driver.renderImage chart_page "u" "out.png" chart_config s =
             Driver.renderImage chart_page "u" "out.png"
               (JObj [("waitSelector", JStr "#chart"); ("captureSelector", JStr "#chart")]) s) /\
  (Driver.renderImage chart_page "u" "out.png" chart_config started =
   ({| wpr_nightmare := Some
         {| nm_viewport := pg_body chart_page (800, 600)%Z;
            nm_log := [] ++
              image_log "u" "out.png" (Some (JStr "#chart")) (pg_body chart_page (800, 600)%Z)
                (Some (JStr "#chart"))
                {| clip_x := Qceiling (21 # 2); clip_y := Qceiling (81 # 4);
                   clip_height := Qceiling ((81 # 4) + 150 - (81 # 4));
                   clip_width := Qceiling ((21 # 2) + (1501 # 5) - (21 # 2)) |} |} |},
    Ok tt)).
Proof.
  destruct (renderImage_captureSelector_defaults_to_waitSelector chart_page "u" "out.png"
           chart_config
           (JObj [("waitSelector", JStr "#chart"); ("captureSelector", JStr "#chart")])
           (Some (JStr "#chart")) {| nm_viewport := (800, 600)%Z; nm_log := [] |}
           (21 # 2)%Q (81 # 4)%Q ((21 # 2) + (1501 # 5))%Q ((81 # 4) + 150)%Q)
    as [Hsame Hrun]; try reflexivity.
  split; [exact Hsame|]. apply Hrun; reflexivity.
Defined.

Lemma renderImage_falsy_captureSelector_as_omitted_witness :
  Driver.renderImage chart_page "u" "out.png" chart_config started =
  Driver.renderImage chart_page "u" "out.png"
    (JObj [("waitSelector", JStr "#chart"); ("captureSelector", JStr "")]) started.
Proof.
  apply (renderImage_falsy_captureSelector_as_omitted chart_page "u" "out.png" chart_config
           (JObj [("waitSelector", JStr "#chart"); ("captureSelector", JStr "")]) (JStr ""));
    try reflexivity.
  intros k Hk. simpl.
  destruct (String.eqb_spec k "captureSelector"); [contradiction|reflexivity].
Defined.

(** A concrete schedule of the event loop is one of its executions. *)
Lemma run_nth_step (i : nat) (c c' : config) :
  run_nth i c = Some c' -> step c c'.
Proof.
  destruct c as [h ts]. unfold run_nth. cbn.
  destruct (h_exit h) eqn:Ex; [discriminate|].
  destruct (ts !! i) as [[lbl run]|] eqn:Ei; [|discriminate].
  intros Hc.
  pose proof (step_run h (take i ts) lbl run (drop (S i) ts) Ex) as Hs.
  rewrite (take_drop_middle ts i _ Ei) in Hs.
  destruct (run h) as [h' new]. injection Hc as <-. exact Hs.
Qed.

Lemma run_sched_steps (is : list nat) (c c' : config) :
  run_sched is c = Some c' -> rtc step c c'.
Proof.
  revert c. induction is as [|i is IH]; intros c; cbn.
  - intros [= <-]. apply rtc_refl.
  - destruct (run_nth i c) as [c''|] eqn:Ei; [|discriminate].
    intros Hs. eapply rtc_l; [apply (run_nth_step i); exact Ei | apply IH; exact Hs].
Qed.

(** C3: when the session was never started, or no template is loaded,
    [renderImage] and [renderPDF] settle at once with a usage error: the
    caller's continuation gets the error on the very heap of the call, so
    no browser action, socket or object is touched. *)
Theorem render_precheck_usage_error (E : env) (out : string) (k : kont unit) (h : heap) :
  tr_webPageRenderer h = None \/ tr_templateWebServer h = None ->
  exists msg, tr_renderImage E out k h = k (Err (EUsage msg)) h /\
              tr_renderPDF E out k h = k (Err (EUsage msg)) h.
Proof.
  intros Hpre. unfold tr_renderImage, tr_renderPDF, tr_render, tr_preRenderCheck.
  destruct (tr_webPageRenderer h) as [w|].
  - destruct Hpre as [Hw|Ht]; [discriminate|].
    rewrite Ht. eexists; split; reflexivity.
  - eexists; split; reflexivity.
Qed.

Lemma render_precheck_usage_error_witness :
  (tr_webPageRenderer empty_heap = None \/ tr_templateWebServer empty_heap = None) /\
  exists msg,
    tr_renderImage demo_env "out.png" (fun _ h => (h, [])) empty_heap =
      (fun (_ : res unit) h => (h, [])) (Err (EUsage msg)) empty_heap /\
    tr_renderPDF demo_env "out.png" (fun _ h => (h, [])) empty_heap =
      (fun (_ : res unit) h => (h, [])) (Err (EUsage msg)) empty_heap.
Proof.
  split; [left; reflexivity|].
  apply (render_precheck_usage_error demo_env "out.png" (fun _ h => (h, [])) empty_heap).
  left; reflexivity.
Defined.

(** C5 (failing run): a started session loads templates [a], [b], [c]
    in turn, each load awaited.  The second load does not await the
    unload of [a]; when [a]'s socket finishes closing before [b] is bound,
    the dropped unload continuation sets [templateWebServer] to [null]
    after [b] was stored there.  The third load then finds nothing to
    unload, and once everything has settled the sockets of [b] and [c]
    are both listening, with every call reported as successful. *)
Theorem reload_leaves_two_servers_listening :
  exists c,
    rtc step (client demo_env [CStart; CLoad "a" JNull 0; CLoad "b" JNull 0;
                               CLoad "c" JNull 0] empty_heap) c /\
    c.2 = [] /\
    listening c.1 = 2 /\
    h_results c.1 = [Done; Done; Done; Done].
Proof.
  match goal with |- exists c, rtc step ?c0 c /\ _ =>
    destruct (run_sched [0;0;0;0;0;0;0;0;0;0] c0) as [c|] eqn:Hrun end.
  - exists c. split; [exact (run_sched_steps _ _ _ Hrun)|].
    vm_compute in Hrun. injection Hrun as <-. vm_compute. auto.
  - vm_compute in Hrun. discriminate.
Qed.

(** In a fresh session, [getUrl] after [loadTemplate] with port 0 names
    the port the OS gave the template's socket (socket 2 here). *)
Example fresh_load_getUrl :
  option_map (fun c => h_results c.1)
    (run_sched [0;0;0] (client demo_env [CStart; CLoad "a" JNull 0; CGetUrl] empty_heap))
  = Some [Done; Done; Url "http://127.0.0.1:40002"].
Proof. vm_compute. reflexivity. Qed.

(** C6 (failing run): same session, [b] loaded over [a], then [getUrl]
    right after [loadTemplate] resolves.  When [a]'s socket closes before
    [b] is bound, the orchestrator has lost its template server and
    [getUrl] throws a [TypeError] instead of returning [b]'s URL. *)
Theorem reload_then_getUrl_fails :
  exists c,
    rtc step (client demo_env [CStart; CLoad "a" JNull 0; CLoad "b" JNull 0; CGetUrl]
                     empty_heap) c /\
    c.2 = [] /\
    h_results c.1 = [Done; Done; Done; Failed ETypeError].
Proof.
  match goal with |- exists c, rtc step ?c0 c /\ _ =>
    destruct (run_sched [0;0;0;0;0;0;0] c0) as [c|] eqn:Hrun end.
  - exists c. split; [exact (run_sched_steps _ _ _ Hrun)|].
    vm_compute in Hrun. injection Hrun as <-. vm_compute. auto.
  - vm_compute in Hrun. discriminate.
Qed.

(** C4 (failing run): a started session loads [bad], whose
    [template.json] has no [waitSelector].  The load fails with the
    configuration error and no socket is ever created, but the session
    keeps the half-started template server: a later [renderImage] passes
    the precondition check and fails with a [TypeError] from [getUrl]
    instead of the usage error for "no template loaded". *)
Theorem failed_load_leaves_template_server :
  exists c,
    rtc step (client demo_env [CStart; CLoad "bad" JNull 0; CRenderImage "out.png"]
                     empty_heap) c /\
    c.2 = [] /\
    h_results c.1 = [Done; Failed EConfigInvalid; Failed ETypeError] /\
    h_http c.1 = ∅ /\
    tr_templateWebServer c.1 = Some 0.
Proof.
  match goal with |- exists c, rtc step ?c0 c /\ _ =>
    destruct (run_sched [0] c0) as [c|] eqn:Hrun end.
  - exists c. split; [exact (run_sched_steps _ _ _ Hrun)|].
    vm_compute in Hrun. injection Hrun as <-. vm_compute. auto.
  - vm_compute in Hrun. discriminate.
Qed.

Section AssetFacts.
Import Asset.







End AssetFacts.




(** C8 (counterexample): no URL is a data endpoint.  Whatever path is
    requested, a server whose template lacks that file answers 404, so
    there is no path at which every server returns its data as JSON. *)
Lemma no_data_endpoint :
  ~ exists ep : string, forall (tpl : Asset.template) (data : json) (cache : gmap string string),
      (Asset.handle tpl data cache ep).2 = Asset.RSend (Asset.BJson data).
Proof.
  intros [ep Hep]. specialize (Hep (fun _ => None) JNull ∅).
  unfold Asset.handle, Asset.loadTemplateFile in Hep. cbn in Hep.
  destruct (String.eqb ep "/"); discriminate.
Qed.

(** C8 (as the code has it): the handler never reads the data object
    given to [WebServer.start]: two servers over the same template answer
    every request identically whatever their data, and no answer is a
    JSON body. *)
Theorem asset_server_ignores_data (tpl : Asset.template) (d1 d2 : json)
    (cache : gmap string string) (url : string) :
  Asset.handle tpl d1 cache url = Asset.handle tpl d2 cache url /\
  forall v, (Asset.handle tpl d1 cache url).2 <> Asset.RSend (Asset.BJson v).
Proof.
  split; [reflexivity|].
  intros v. unfold Asset.handle.
  destruct (Asset.loadTemplateFile tpl cache _) as [[c ex] [r|e]]; discriminate.
Qed.

(* ------------------------------------------------------------------ *)
(** ** The entry points [captureImage] and [capturePDF] *)

(** A configuration whose only pending task is [f], in a process that is
    still running, steps to what [f] returns. *)
Lemma ex_step1 (P : config -> Prop) (h : heap) (l : string) (f : heap -> heap * list task) :
  h_exit h = None ->
  (exists c, rtc step (f h) c /\ P c) -> exists c, rtc step (h, [Task l f]) c /\ P c.
Proof.
  intros Hx [c [Hs HP]]. exists c. split; [|exact HP].
  eapply rtc_l; [apply (step_run h [] l f [] Hx)|].
  destruct (f h) as [h' new]. exact Hs.
Qed.

Lemma ex_done (P : config -> Prop) (c : config) : P c -> exists c', rtc step c c' /\ P c'.
Proof. intros HP. exists c. split; [apply rtc_refl|exact HP]. Qed.

(** The caller's next call, unfolded one at a time: the rest of the
    calls stays folded inside the continuation. *)
Lemma client_cons (E : env) (c : cmd) (rest : list cmd) (h : heap) :
  client E (c :: rest) h =
    let k : kont unit := fun r h => client E rest (record (of_res r) h) in
    match c with
    | CStart => tr_start k h
    | CLoad p d port => tr_loadTemplate E p d port k h
    | CUnload => tr_unloadTemplate k h
    | CEnd => tr_end k h
    | CGetUrl =>
        client E rest (record (match tr_getUrl h with
                               | Ok s => Url s
                               | Err e => Failed e
                               end) h)
    | CRenderImage out => tr_renderImage E out k h
    | CRenderPDF out => tr_renderPDF E out k h
    end.
Proof. reflexivity. Qed.

Lemma client_nil (E : env) (h : heap) : client E [] h = (h, []).
Proof. reflexivity. Qed.

#[local] Arguments client : simpl never.

(** Run the synchronous part of the current callback symbolically. *)
Ltac unfold_session := unfold captureImage, capturePDF, capture, chain,
  initTemplateRenderer, new_renderer, deinitTemplateRenderer, of_res, tr_getUrl, tr_start,
  tr_loadTemplate, tr_unloadTemplate, tws_start, tws_end, ws_start, ws_stop, tr_end,
  tr_renderImage, tr_renderPDF, tr_render, tr_preRenderCheck, tws_getUrl,
  tws_getTemplateConfig, ws_getUrl, upd_tws, upd_ws, caller, set_tr_wpr, set_tr_tws,
  set_tws, set_ws, set_http, bump, record, empty_heap.

Ltac run_sync :=
  repeat progress (rewrite ?client_cons, ?client_nil; unfold_session; cbn -[pretty];
                   rewrite ?alter_insert_eq, ?insert_insert_eq; simpl_map).

(** Run the one pending task. *)
Ltac next := apply ex_step1; [reflexivity | run_sync].

Ltac count_listening := unfold listening; cbn;
  rewrite ?insert_empty, ?map_to_list_singleton, ?map_to_list_empty; reflexivity.

(** [ensureDir], [start] and a successful [loadTemplate]. *)
Ltac load_ok Hdir Hcfg Hws Hinf :=
  run_sync; next; rewrite Hdir; run_sync;
  next; rewrite Hcfg; run_sync; rewrite Hws; run_sync;
  next; rewrite Hinf; run_sync; next.

(** [captureImage] / [capturePDF], successful run: when the output
    directory can be made, the template has a valid configuration and
    inflates, and the render succeeds, the call resolves and, once the
    event loop is idle, no server socket is listening and the renderer has
    released both its browser and its template web server.  The caller's
    options play no part: [deinitTemplateRenderer] is called without
    them, so [leaveBrowserOpen] is never honoured. *)
Theorem capture_render_ok (E : env) (ensureDir : string -> res unit)
    (drive : page -> string -> string -> json -> St wpr unit)
    (p out : string) (d : json) (options : option json) (fields : list (string * json))
    (sel : string) (nm : nightmare) :
  ensureDir out = Ok tt ->
  env_config E p = Some (JObj fields) ->
  js_lookup "waitSelector" fields = Some (JStr sel) -> sel <> "" ->
  env_inflate E p d = true ->
  drive (env_page E ("http://127.0.0.1:" +:+ pretty (env_port E 2)))
        ("http://127.0.0.1:" +:+ pretty (env_port E 2)) out (JObj fields) started
    = ({| wpr_nightmare := Some nm |}, Ok tt) ->
  exists c, rtc step (capture E ensureDir (tr_render E drive) p d out options caller empty_heap) c /\
    c.2 = [] /\ h_results c.1 = [Done] /\ listening c.1 = 0 /\
    tr_webPageRenderer c.1 = None /\ tr_templateWebServer c.1 = None.
Proof.
  intros Hdir Hcfg Hws Hsel Hinf Hrender.
  destruct sel as [|a s]; [congruence|].
  unfold started in Hrender.
  load_ok Hdir Hcfg Hws Hinf. rewrite Hrender. run_sync.
  next. next. next.
  apply ex_done. cbn. split; [reflexivity|]. split; [reflexivity|].
  split; [|split; reflexivity].
  count_listening.
Qed.

Lemma capture_render_ok_witness :
  exists c, rtc step (captureImage demo_env (fun _ => Ok tt) "chart" JNull "out/chart.png"
                        (Some (JObj [("leaveBrowserOpen", JBool true)])) caller empty_heap) c /\
    c.2 = [] /\ h_results c.1 = [Done] /\ listening c.1 = 0 /\
    tr_webPageRenderer c.1 = None /\ tr_templateWebServer c.1 = None.
Proof.
  eapply (capture_render_ok demo_env (fun _ => Ok tt) Driver.renderImage "chart" "out/chart.png"
            JNull (Some (JObj [("leaveBrowserOpen", JBool true)]))
            [("waitSelector", JStr "#chart")] "#chart").
  - reflexivity.
  - reflexivity.
  - reflexivity.
  - discriminate.
  - reflexivity.
  - reflexivity.
Defined.

(** [captureImage] / [capturePDF], failing render: when everything up to
    the render succeeds but the render rejects, the call rejects with the
    render's error and [deinitTemplateRenderer] is never reached: once the
    event loop is idle the template's server socket is still listening and
    the renderer still holds its browser and its template web server. *)
Theorem capture_render_fails (E : env) (ensureDir : string -> res unit)
    (drive : page -> string -> string -> json -> St wpr unit)
    (p out : string) (d : json) (options : option json) (fields : list (string * json))
    (sel : string) (s' : wpr) (e : error) :
  ensureDir out = Ok tt ->
  env_config E p = Some (JObj fields) ->
  js_lookup "waitSelector" fields = Some (JStr sel) -> sel <> "" ->
  env_inflate E p d = true ->
  drive (env_page E ("http://127.0.0.1:" +:+ pretty (env_port E 2)))
        ("http://127.0.0.1:" +:+ pretty (env_port E 2)) out (JObj fields) started
    = (s', Err e) ->
  exists c, rtc step (capture E ensureDir (tr_render E drive) p d out options caller empty_heap) c /\
    c.2 = [] /\ h_results c.1 = [Failed e] /\ listening c.1 = 1 /\
    tr_webPageRenderer c.1 = Some s' /\ tr_templateWebServer c.1 = Some 0.
Proof.
  intros Hdir Hcfg Hws Hsel Hinf Hrender.
  destruct sel as [|a s]; [congruence|].
  unfold started in Hrender.
  load_ok Hdir Hcfg Hws Hinf. rewrite Hrender. run_sync.
  next.
  apply ex_done. cbn. split; [reflexivity|]. split; [reflexivity|].
  split; [|split; reflexivity].
  count_listening.
Qed.

Lemma capture_render_fails_witness :
  exists c, rtc step (capturePDF
                        {| env_config := env_config demo_env;
                           env_inflate := env_inflate demo_env;
                           env_port := env_port demo_env;
                           env_page := fun _ => {| pg_loads := false;
                                                   pg_waits := fun _ => true;
                                                   pg_body := fun vp => vp;
                                                   pg_rect := fun _ _ => None;
                                                   pg_writable := fun _ => true |};
                           env_port_taken := env_port_taken demo_env |}
                        (fun _ => Ok tt) "chart" JNull "out/chart.pdf" None caller empty_heap) c /\
    c.2 = [] /\ h_results c.1 = [Failed ENavigation] /\ listening c.1 = 1 /\
    tr_webPageRenderer c.1 = Some started /\ tr_templateWebServer c.1 = Some 0.
Proof.
  apply (capture_render_fails
           {| env_config := env_config demo_env;
              env_inflate := env_inflate demo_env;
              env_port := env_port demo_env;
              env_page := fun _ => {| pg_loads := false;
                                      pg_waits := fun _ => true;
                                      pg_body := fun vp => vp;
                                      pg_rect := fun _ _ => None;
                                      pg_writable := fun _ => true |};
              env_port_taken := env_port_taken demo_env |}
           (fun _ => Ok tt) Driver.renderPDF "chart" "out/chart.pdf" JNull None
           [("waitSelector", JStr "#chart")] "#chart" started ENavigation).
  - reflexivity.
  - reflexivity.
  - reflexivity.
  - discriminate.
  - reflexivity.
  - reflexivity.
Defined.

(** [captureImage] / [capturePDF], failing load: when the output
    directory can be made but the template's configuration is missing,
    has no string [waitSelector], or the template does not inflate, the
    call rejects with that error before any server is created, and the
    browser started by [initTemplateRenderer] is left open.  A
    configuration on which reading [waitSelector] throws (a
    [template.json] of [null]) rejects the same way with that error. *)
Theorem capture_fails_before_render (E : env) (ensureDir : string -> res unit)
    (render : string -> kont unit -> heap -> heap * list task)
    (p out : string) (d : json) (options : option json) (cfg : json) (ws : option json) :
  ensureDir out = Ok tt ->
  (env_config E p = None ->
   exists c, rtc step (capture E ensureDir render p d out options caller empty_heap) c /\
     c.2 = [] /\ h_results c.1 = [Failed EConfigNotFound] /\ h_http c.1 = ∅ /\
     tr_webPageRenderer c.1 = Some started) /\
  (env_config E p = Some cfg -> js_get cfg "waitSelector" = Ok ws ->
   truthy ws && is_string ws = false ->
   exists c, rtc step (capture E ensureDir render p d out options caller empty_heap) c /\
     c.2 = [] /\ h_results c.1 = [Failed EConfigInvalid] /\ h_http c.1 = ∅ /\
     tr_webPageRenderer c.1 = Some started) /\
  (env_config E p = Some cfg -> js_get cfg "waitSelector" = Ok ws ->
   truthy ws && is_string ws = true -> env_inflate E p d = false ->
   exists c, rtc step (capture E ensureDir render p d out options caller empty_heap) c /\
     c.2 = [] /\ h_results c.1 = [Failed EInflate] /\ h_http c.1 = ∅ /\
     tr_webPageRenderer c.1 = Some started) /\
  (forall e, env_config E p = Some cfg -> js_get cfg "waitSelector" = Err e ->
   exists c, rtc step (capture E ensureDir render p d out options caller empty_heap) c /\
     c.2 = [] /\ h_results c.1 = [Failed e] /\ h_http c.1 = ∅ /\
     tr_webPageRenderer c.1 = Some started).
Proof.
  intros Hdir. split; [|split; [|split]].
  - intros Hcfg. run_sync. next. rewrite Hdir. run_sync. next. rewrite Hcfg. run_sync.
    apply ex_done. cbn. auto.
  - intros Hcfg Hws Hbad. run_sync. next. rewrite Hdir. run_sync. next. rewrite Hcfg.
    run_sync. rewrite Hws. run_sync.
    destruct (truthy ws), (is_string ws); try discriminate Hbad; cbn;
      apply ex_done; cbn; auto.
  - intros Hcfg Hws Hok Hinf. run_sync. next. rewrite Hdir. run_sync. next. rewrite Hcfg.
    run_sync. rewrite Hws. run_sync.
    destruct (truthy ws), (is_string ws); try discriminate Hok. cbn.
    next. rewrite Hinf. run_sync.
    apply ex_done. cbn. auto.
  - intros e Hcfg Hws. run_sync. next. rewrite Hdir. run_sync. next. rewrite Hcfg.
    run_sync. rewrite Hws. run_sync.
    apply ex_done. cbn. auto.
Qed.

Lemma capture_fails_before_render_witness :
  exists c, rtc step (captureImage demo_env (fun _ => Ok tt) "bad" JNull "out/bad.png" None
                        caller empty_heap) c /\
    c.2 = [] /\ h_results c.1 = [Failed EConfigInvalid] /\ h_http c.1 = ∅ /\
    tr_webPageRenderer c.1 = Some started.
Proof.
  destruct (capture_fails_before_render demo_env (fun _ => Ok tt) (tr_renderImage demo_env)
              "bad" "out/bad.png" JNull None (JObj []) None) as [_ [Hinvalid _]].
  - reflexivity.
  - apply Hinvalid; reflexivity.
Defined.

(* ------------------------------------------------------------------ *)
(** ** The orchestrator's URL and unload *)







(* ------------------------------------------------------------------ *)
(** ** [WebPageRenderer]: errors and the capture rectangle *)

(** [WebPageRenderer.renderImage] / [renderPDF] before any browser
    interaction: reading [options.waitSelector] from [null] throws; a
    falsy [waitSelector] is rejected with its usage error, and then a
    renderer that was never started with the "not instantiated" usage
    error.  In each case the driver state is left as it was. *)
Theorem render_precondition_errors (pg : page) (url out : string) (options : json) (s : wpr) :
  (forall e, js_get options "waitSelector" = Err e ->
     Driver.renderImage pg url out options s = (s, Err e) /\
     Driver.renderPDF pg url out options s = (s, Err e)) /\
  (forall ws, js_get options "waitSelector" = Ok ws -> truthy ws = false ->
     Driver.renderImage pg url out options s = (s, Err (EUsage Driver.msg_waitSelector)) /\
     Driver.renderPDF pg url out options s = (s, Err (EUsage Driver.msg_waitSelector))) /\
  (forall ws, js_get options "waitSelector" = Ok ws -> truthy ws = true ->
     wpr_nightmare s = None ->
     Driver.renderImage pg url out options s = (s, Err (EUsage Driver.msg_not_instantiated)) /\
     Driver.renderPDF pg url out options s = (s, Err (EUsage Driver.msg_not_instantiated))).
Proof.
  unfold Driver.renderImage, Driver.renderPDF, Driver.preRenderCheck.
  split; [|split].
  - intros e He. cbn. rewrite He. split; reflexivity.
  - intros ws Hws Hf. cbn. rewrite Hws, Hf. split; reflexivity.
  - intros ws Hws Ht Hn. destruct s as [o]. cbn in Hn. subst o. cbn.
    rewrite Hws, Ht. split; reflexivity.
Qed.

Lemma render_precondition_errors_witness :
  Driver.renderImage chart_page "http://127.0.0.1:8080" "out/chart.png"
    (JObj [("waitSelector", JStr "")]) started
  = (started, Err (EUsage Driver.msg_waitSelector)) /\
  Driver.renderPDF chart_page "http://127.0.0.1:8080" "out/chart.pdf"
    (JObj [("waitSelector", JStr "#chart")]) {| wpr_nightmare := None |}
  = ({| wpr_nightmare := None |}, Err (EUsage Driver.msg_not_instantiated)).
Proof.
  split.
  - destruct (render_precondition_errors chart_page "http://127.0.0.1:8080" "out/chart.png"
                (JObj [("waitSelector", JStr "")]) started) as [_ [H _]].
    apply (H (Some (JStr ""))); reflexivity.
  - destruct (render_precondition_errors chart_page "http://127.0.0.1:8080" "out/chart.pdf"
                (JObj [("waitSelector", JStr "#chart")]) {| wpr_nightmare := None |})
      as [_ [_ H]].
    apply (H (Some (JStr "#chart"))); reflexivity.
Defined.

(** Split every match of a hypothesis on a scrutinee free of matches. *)
Ltac split_in H :=
  repeat match type of H with
         | context [match ?x with _ => _ end] =>
             lazymatch x with
             | context [match _ with _ => _ end] => fail
             | _ => destruct x eqn:?; cbn in H
             end
         end.

(** [WebPageRenderer.renderImage] / [renderPDF] that reject only grew
    the browser log.  Either none of the new actions writes a file, or
    the render failed in its last action, the write of the output path
    itself, because that path is not writable: then the rejection is
    the write error and nothing else was written. *)
Theorem render_failure_writes_nothing (pg : page) (url out : string) (options : json)
    (s s' : wpr) (e : error) :
  (Driver.renderImage pg url out options s = (s', Err e) \/
   Driver.renderPDF pg url out options s = (s', Err e)) ->
  exists extra, log_of s' = log_of s ++ extra /\
    ((forall a, In a extra -> writes_output a = false) \/
     (e = EWrite /\ pg_writable pg out = false /\
      exists pre a, extra = pre ++ [a] /\ output_of a = Some out /\
                    forall b, In b pre -> writes_output b = false)).
Proof.
  destruct s as [[nm|]];
  unfold Driver.renderImage, Driver.renderPDF, Driver.preRenderCheck, Driver.goto,
    Driver.wait, Driver.evaluate_body, Driver.viewport, Driver.evaluate_rect,
    Driver.screenshot, Driver.pdf, Driver.with_nm, Driver.log, lift, log_of, mbind, St_bind;
  intros [H|H]; cbn in H; split_in H; try discriminate H.
  all: injection H as <- <-; cbn.
  all: eexists; split; [first [symmetry; apply app_nil_r | rewrite <- ?app_assoc; reflexivity] |].
  all: first
    [ left; intros ?act Ha; repeat destruct Ha as [<-|Ha]; try reflexivity; contradiction
    | right; split; [reflexivity|]; split; [first [reflexivity | assumption]|];
      match goal with
      | |- exists pre a, ?l = pre ++ [a] /\ _ => exists (removelast l), (List.last l (AGoto ""))
      end;
      split; [reflexivity|]; split; [reflexivity|];
      intros ?act Ha; cbn in Ha; repeat destruct Ha as [<-|Ha]; try reflexivity; contradiction ].
Qed.

Lemma render_failure_writes_nothing_witness :
  exists extra,
    log_of (Driver.renderImage chart_page "http://127.0.0.1:8080" "out/chart.png"
              (JObj [("waitSelector", JStr "#missing")]) started).1
    = log_of started ++ extra /\
    ((forall a, In a extra -> writes_output a = false) \/
     (EWaitTimeout = EWrite /\ pg_writable chart_page "out/chart.png" = false /\
      exists pre a, extra = pre ++ [a] /\ output_of a = Some "out/chart.png" /\
                    forall b, In b pre -> writes_output b = false)).
Proof.
  apply (render_failure_writes_nothing chart_page "http://127.0.0.1:8080" "out/chart.png"
           (JObj [("waitSelector", JStr "#missing")]) started _ EWaitTimeout).
  left. reflexivity.
Defined.

(** The capture rectangle of [renderImage]: each component goes through
    [Math.ceil], so the clip starts less than one pixel right of and
    below the element's corner (possibly cutting a fraction of a pixel
    off its left and top edges), and ends at or beyond its right and
    bottom edges, by less than two pixels. *)
Theorem ceil_rect_bounds (l t rt b : Q) :
  let c := Driver.ceil_rect (l, t, rt, b) in
  ((l <= inject_Z (clip_x c) < l + 1) /\
   (t <= inject_Z (clip_y c) < t + 1) /\
   (rt <= inject_Z (clip_x c + clip_width c) < rt + 2) /\
   (b <= inject_Z (clip_y c + clip_height c) < b + 2))%Q.
Proof.
  intros c. subst c. cbn -[Qceiling].
  pose proof (Qle_ceiling l). pose proof (Qceiling_lt l).
  pose proof (Qle_ceiling t). pose proof (Qceiling_lt t).
  pose proof (Qle_ceiling (rt - l)). pose proof (Qceiling_lt (rt - l)).
  pose proof (Qle_ceiling (b - t)). pose proof (Qceiling_lt (b - t)).
  unfold Z.sub in *. rewrite !inject_Z_plus in *.
  replace (inject_Z (- (1))) with (-1)%Q in * by reflexivity.
  repeat split; lra.
Qed.

(* ------------------------------------------------------------------ *)
(** ** [WebServer]: from request URL to template file *)

Section AssetPaths.
Import Asset.

Lemma append_cons (c : ascii) (s t : string) : String c s +:+ t = String c (s +:+ t).
Proof. reflexivity. Qed.

Lemma js_split_slash_slash (t : string) : js_split_slash (String "/" t) = "" :: js_split_slash t.
Proof. reflexivity. Qed.

Lemma filter_empty_head (l : list string) :
  List.filter (fun s => negb (String.eqb s "")) ("" :: l)
  = List.filter (fun s => negb (String.eqb s "")) l.
Proof. reflexivity. Qed.

Lemma js_split_slash_app (s t : string) :
  Forall (fun c => c <> "/"%char) (String.list_ascii_of_string s) ->
  forall p ps, js_split_slash t = p :: ps -> js_split_slash (s +:+ t) = (s +:+ p) :: ps.
Proof.
  induction s as [|c s IH]; intros Hs p ps Ht; [exact Ht|].
  rewrite !append_cons. cbn [js_split_slash].
  inversion Hs as [|? ? Hc Hs']; subst.
  rewrite (IH Hs' p ps Ht).
  destruct (Ascii.eqb_spec c "/"%char); [contradiction|reflexivity].
Qed.

Lemma append_empty_r (s : string) : s +:+ "" = s.
Proof. induction s as [|c s IH]; [reflexivity|]. rewrite append_cons, IH. reflexivity. Qed.

Lemma js_split_slash_concat (segs : list string) :
  segs <> [] ->
  Forall (fun s => Forall (fun c => c <> "/"%char) (String.list_ascii_of_string s)) segs ->
  js_split_slash (String.concat "/" segs) = segs.
Proof.
  induction segs as [|s [|s2 rest] IH]; intros Hne Hall; [congruence| |].
  - inversion Hall; subst. cbn.
    rewrite <- (append_empty_r s) at 1.
    rewrite (js_split_slash_app s "" ltac:(assumption) "" []) by reflexivity.
    rewrite append_empty_r. reflexivity.
  - inversion Hall as [|? ? Hs Hrest]; subst.
    change (String.concat "/" (s :: s2 :: rest))
      with (s +:+ String "/" (String.concat "/" (s2 :: rest))).
    rewrite (js_split_slash_app s _ Hs "" (s2 :: rest)).
    + rewrite append_empty_r. reflexivity.
    + cbn [js_split_slash]. rewrite (IH ltac:(congruence) Hrest). reflexivity.
Qed.

Lemma norm_segs_plain (segs : list string) :
  Forall (fun s => s <> "." /\ s <> "..") segs ->
  forall acc, norm_segs acc segs = rev acc ++ segs.
Proof.
  induction segs as [|s rest IH]; intros Hall acc; cbn; [symmetry; apply app_nil_r|].
  inversion Hall as [|? ? [Hd Hdd] Hrest]; subst.
  destruct (String.eqb_spec s "."); [contradiction|].
  destruct (String.eqb_spec s ".."); [contradiction|].
  rewrite IH by exact Hrest. cbn. rewrite <- app_assoc. reflexivity.
Qed.

Lemma filter_nonempty (segs : list string) :
  Forall (fun s => s <> "") segs ->
  List.filter (fun s => negb (String.eqb s "")) segs = segs.
Proof.
  induction segs as [|s rest IH]; intros Hall; cbn; [reflexivity|].
  inversion Hall; subst. destruct (String.eqb_spec s ""); [contradiction|].
  cbn. rewrite IH by assumption. reflexivity.
Qed.

End AssetPaths.

(** [WebServer] request handler, first request for a URL: a URL [/P]
    whose segments are plain names (non-empty, not [.] or [..], no [/])
    is served from template file [P]; the URL [/../P] is served from
    [../P], a path outside the template's root.  The file is expanded and
    cached under the URL; a missing file gets 404 and leaves the cache as
    it was. *)
Theorem asset_url_to_template_path (tpl : Asset.template) (data : json)
    (cache : gmap string string) (segs : list string) :
  segs <> [] ->
  Forall (fun s => s <> "" /\ s <> "." /\ s <> ".." /\
                   Forall (fun c => c <> "/"%char) (String.list_ascii_of_string s)) segs ->
  let P := String.concat "/" segs in
  forall u fsp,
    (u = "/" +:+ P /\ fsp = P) \/ (u = "/../" +:+ P /\ fsp = "../" +:+ P) ->
    cache !! u = None ->
    Asset.handle tpl data cache u =
      match tpl fsp with
      | Some x => (<[u := x]> cache, [fsp], Asset.RSend (Asset.BText x))
      | None => (cache, [], Asset.RStatus 404)
      end.
Proof.
  intros Hne Hall P u fsp Hu Hc.
  assert (Hslash : String.eqb u "/" = false).
  { destruct Hu as [[-> _]|[-> _]]; [|reflexivity].
    destruct segs as [|s rest]; [congruence|].
    inversion Hall as [|? ? [Hs _] _]; subst.
    subst P. destruct s as [|a s]; [congruence|].
    destruct rest; reflexivity. }
  assert (Hsplit : Asset.js_split_slash P = segs).
  { apply js_split_slash_concat; [exact Hne|].
    eapply Forall_impl; [exact Hall|]. cbn. tauto. }
  assert (HP : P = String.concat "/" segs) by reflexivity.
  clearbody P.
  assert (Hfilt : List.filter (fun s => negb (String.eqb s "")) segs = segs).
  { apply filter_nonempty. eapply Forall_impl; [exact Hall|]. cbn. tauto. }
  assert (Hnorm : forall acc, Asset.norm_segs acc segs = rev acc ++ segs).
  { apply norm_segs_plain. eapply Forall_impl; [exact Hall|]. cbn. tauto. }
  assert (Hpath : Asset.path_join (Asset.js_split_slash u) = fsp).
  { destruct segs as [|s rest]; [congruence|].
    destruct Hu as [[-> ->]|[-> ->]].
    - change ("/" +:+ P) with (String "/" P).
      rewrite js_split_slash_slash, Hsplit.
      unfold Asset.path_join. rewrite filter_empty_head, Hfilt, (Hnorm []).
      rewrite HP. reflexivity.
    - change ("/../" +:+ P) with (String "/" (".." +:+ ("/" +:+ P))).
      rewrite js_split_slash_slash.
      rewrite (js_split_slash_app ".." ("/" +:+ P)
                 ltac:(repeat constructor; discriminate) "" (s :: rest)).
      2:{ change ("/" +:+ P) with (String "/" P).
          rewrite js_split_slash_slash, Hsplit. reflexivity. }
      unfold Asset.path_join. rewrite filter_empty_head.
      change (".." +:+ "") with "..".
      change (List.filter (fun s => negb (String.eqb s "")) (".." :: s :: rest))
        with (".." :: List.filter (fun s => negb (String.eqb s "")) (s :: rest)).
      rewrite Hfilt.
      change (Asset.norm_segs [] (".." :: s :: rest)) with (Asset.norm_segs [".."] (s :: rest)).
      rewrite (Hnorm [".."]). rewrite HP. reflexivity. }
  unfold Asset.handle, Asset.loadTemplateFile. rewrite Hslash, Hc, Hpath.
  destruct (tpl fsp); reflexivity.
Qed.

(** [WebServer] cache and empty files: the cache test is truthiness, so
    a file whose expansion is empty is never served from the cache: [n]
    requests for its URL expand it [n] times, each answered with the empty
    content. *)
Theorem asset_empty_file_reexpanded (tpl : Asset.template) (data : json) (url : string) (n : nat) :
  let f := if String.eqb url "/" then "index.html" else url in
  let fsp := Asset.path_join (Asset.js_split_slash f) in
  tpl fsp = Some "" ->
  forall cache : gmap string string,
  cache !! f = None \/ cache !! f = Some "" ->
  (Asset.serve_all tpl data cache (repeat url n)).1.2 = repeat fsp n /\
  (Asset.serve_all tpl data cache (repeat url n)).2 = repeat (Asset.RSend (Asset.BText "")) n.
Proof.
  intros f fsp Htpl.
  induction n as [|n IH]; intros cache Hc; [split; reflexivity|].
  cbn [repeat Asset.serve_all].
  assert (Hh : Asset.handle tpl data cache url =
               (<[f := ""]> cache, [fsp], Asset.RSend (Asset.BText ""))).
  { unfold Asset.handle, Asset.loadTemplateFile. fold f. fold fsp.
    destruct Hc as [-> | ->]; cbn; rewrite Htpl; reflexivity. }
  rewrite Hh.
  destruct (IH (<[f := ""]> cache)) as [H1 H2]; [right; apply lookup_insert_eq|].
  destruct (Asset.serve_all tpl data (<[f := ""]> cache) (repeat url n)) as [[c2 ex2] rs].
  cbn in *. rewrite H1, H2. split; reflexivity.
Qed.

Lemma asset_url_to_template_path_witness :
  Asset.handle Asset.demo_template JNull ∅ "/../js/app.js" = (∅, [], Asset.RStatus 404) /\
  Asset.handle Asset.demo_template JNull ∅ "/js/app.js"
  = (<["/js/app.js" := "render();"]> ∅, ["js/app.js"], Asset.RSend (Asset.BText "render();")).
Proof.
  split.
  - refine (asset_url_to_template_path Asset.demo_template JNull ∅ ["js"; "app.js"] _ _
              "/../js/app.js" "../js/app.js" _ _).
    + discriminate.
    + repeat (apply Forall_cons || apply Forall_nil || split || (discriminate) || (progress cbn)).
    + right. split; reflexivity.
    + apply lookup_empty.
  - refine (asset_url_to_template_path Asset.demo_template JNull ∅ ["js"; "app.js"] _ _
              "/js/app.js" "js/app.js" _ _).
    + discriminate.
    + repeat (apply Forall_cons || apply Forall_nil || split || (discriminate) || (progress cbn)).
    + left. split; reflexivity.
    + apply lookup_empty.
Defined.

Lemma asset_empty_file_reexpanded_witness :
  let tpl : Asset.template := fun p => if String.eqb p "empty.css" then Some "" else None in
  (Asset.serve_all tpl JNull ∅ (repeat "/empty.css" 3)).1.2 = repeat "empty.css" 3 /\
  (Asset.serve_all tpl JNull ∅ (repeat "/empty.css" 3)).2
  = repeat (Asset.RSend (Asset.BText "")) 3.
Proof.
  intros tpl.
  refine (asset_empty_file_reexpanded tpl JNull "/empty.css" 3 _ ∅ _).
  - reflexivity.
  - left. apply lookup_empty.
Defined.
